(** * register_terminal_reader.py: a shallow embedding

    The script registers a tablet as a Stripe Terminal reader with three
    sequential HTTP calls.  It is embedded as functions of a small
    state-and-exception monad: the state holds the remote service, the
    list of requests handed to the transport so far, and the lines printed
    on standard output.

    What the embedding takes from outside the script:
    - the remote service and the transport are a transition function
      [serve]: a request either gets a response or the transport raises an
      exception of the [requests] library (all of which derive from
      [Exception]);
    - the parser behind [response.json()] is the field [parsed] of a
      response: [None] when the body is not JSON;
    - an f-string is kept as its sequence of literal text and interpolated
      values, so a printed line is a list of pieces; formatting a value
      never raises;
    - a Python [str] is held as the bytes [s.encode('utf-8',
      'surrogatepass')] give, as the literals of the script are: a lone
      surrogate, which [json.loads] accepts in a string, is the three bytes
      ED A0..BF 80..BF;
    - standard output encodes as UTF-8 and is strict: [print] raises
      [UnicodeEncodeError] on a text that holds a lone surrogate and
      writes nothing of it;
    - [response.text] is decoded by [requests] with [errors='replace'], and
      the message of a transport exception is text of the library: neither
      holds a lone surrogate. *)

From Stdlib Require Import String Ascii List ZArith Bool Lia.
From Stdlib Require Import Floats.SpecFloat.
Import ListNotations.
Local Open Scope string_scope.
Local Open Scope list_scope.

Set Implicit Arguments.
Set Warnings "-register-all".

(** ** Python values, as [json.loads] builds them *)

Inductive pyval : Type :=
| PyNone
| PyBool (b : bool)
| PyInt (n : Z)
| PyFloat (x : spec_float)
| PyStr (s : string)
| PyList (xs : list pyval)
| PyDict (items : list (string * pyval)).

(** Exceptions the script can meet.  [SystemExit] derives from
    [BaseException] only; the others derive from [Exception]. *)
Inductive exn : Type :=
| KeyError (key : string)
| TypeError (type_name : string)
| JSONDecodeError
| RequestException (msg : string)
| UnicodeEncodeError
| SystemExit (code : Z).

Definition is_Exception (e : exn) : bool :=
  match e with
  | SystemExit _ => false
  | _ => true
  end.

Inductive result (A : Type) : Type :=
| Ret (a : A)
| Raise (e : exn).
Arguments Ret {A} a.
Arguments Raise {A} e.

Definition type_name_of (v : pyval) : string :=
  match v with
  | PyNone => "NoneType"
  | PyBool _ => "bool"
  | PyInt _ => "int"
  | PyFloat _ => "float"
  | PyStr _ => "str"
  | PyList _ => "list"
  | PyDict _ => "dict"
  end.

(** A dict keeps its items in insertion order; lookup takes the first
    item with the key. *)
Fixpoint dict_get (V : Type) (k : string) (items : list (string * V)) : option V :=
  match items with
  | [] => None
  | (k', v) :: rest => if String.eqb k' k then Some v else dict_get k rest
  end.

(** [v[k]] for a string key [k]: only a dict accepts it. *)
Definition getitem (v : pyval) (k : string) : result pyval :=
  match v with
  | PyDict items =>
      match dict_get k items with
      | Some x => Ret x
      | None => Raise (KeyError k)
      end
  | _ => Raise (TypeError (type_name_of v))
  end.

(** A byte 10xxxxxx continues the character begun before it. *)
Definition is_continuation (c : ascii) : bool :=
  let n := nat_of_ascii c in (128 <=? n)%nat && (n <? 192)%nat.

Definition continues (s : string) : bool :=
  match s with
  | String c _ => is_continuation c
  | EmptyString => false
  end.

(** The characters of a str, each with the bytes that encode it. *)
Fixpoint chars (s : string) : list string :=
  match s with
  | EmptyString => []
  | String c rest =>
      if continues rest then
        match chars rest with
        | ch :: more => String c ch :: more
        | [] => [String c EmptyString]
        end
      else String c EmptyString :: chars rest
  end.

(** The str holds a code point U+D800..U+DFFF: a byte ED followed by a
    byte A0..BF. *)
Fixpoint has_surrogate (s : string) : bool :=
  match s with
  | EmptyString => false
  | String c rest =>
      match rest with
      | String c' _ =>
          ((nat_of_ascii c =? 237)%nat
           && (160 <=? nat_of_ascii c')%nat && (nat_of_ascii c' <=? 191)%nat)
          || has_surrogate rest
      | EmptyString => false
      end
  end.

(** [str(v)] can be encoded as UTF-8: a str must hold no lone surrogate;
    numbers, [None] and booleans are ASCII, and the [repr] of the strings
    inside a list or a dict escapes surrogates. *)
Definition printable (v : pyval) : bool :=
  match v with
  | PyStr s => negb (has_surrogate s)
  | _ => true
  end.

(** [len(v)] *)
Definition py_len (v : pyval) : result Z :=
  match v with
  | PyStr s => Ret (Z.of_nat (List.length (chars s)))
  | PyList xs => Ret (Z.of_nat (List.length xs))
  | PyDict items => Ret (Z.of_nat (List.length items))
  | _ => Raise (TypeError (type_name_of v))
  end.

(** The elements a [for] loop over [v] visits. *)
Definition py_iter (v : pyval) : result (list pyval) :=
  match v with
  | PyStr s => Ret (map PyStr (chars s))
  | PyList xs => Ret xs
  | PyDict items => Ret (map (fun kv => PyStr (fst kv)) items)
  | _ => Raise (TypeError (type_name_of v))
  end.

(** Truth value of [v] in [if v:]. *)
Definition truthy (v : pyval) : bool :=
  match v with
  | PyNone => false
  | PyBool b => b
  | PyInt n => negb (n =? 0)%Z
  | PyFloat (S754_zero _) => false
  | PyFloat _ => true
  | PyStr s => negb (s =? "")%string
  | PyList xs => match xs with [] => false | _ => true end
  | PyDict items => match items with [] => false | _ => true end
  end.

(** ** HTTP through [requests] *)

Inductive http_method : Type := GET | POST.

Record request : Type := Request {
  rq_method : http_method;
  rq_url : string;
  rq_headers : list (string * string);
  rq_data : list (string * string)
}.

Record response : Type := Response {
  status_code : Z;
  text : string;
  text_decoded : has_surrogate text = false;
  parsed : option pyval
}.

Inductive outcome : Type :=
| Responds (r : response)
| Fails (msg : string).

(** [response.json()] *)
Definition json (r : response) : result pyval :=
  match parsed r with
  | Some v => Ret v
  | None => Raise JSONDecodeError
  end.

(** ** Standard output *)

Inductive piece : Type :=
| Lit (s : string)
| Fmt (v : pyval)
| FmtExn (e : exn).

Definition line : Type := list piece.

(** The text of the piece can be encoded as UTF-8.  The [str] of the
    exceptions met here is ASCII: a [KeyError] shows the [repr] of the
    key, a [UnicodeEncodeError] the escaped character. *)
Definition piece_ok (p : piece) : bool :=
  match p with
  | Lit s => negb (has_surrogate s)
  | Fmt v => printable v
  | FmtExn _ => true
  end.

Definition encodable (l : line) : bool := forallb piece_ok l.

(** [s * n] on strings *)
Fixpoint str_mul (s : string) (n : nat) : string :=
  match n with
  | O => EmptyString
  | S n' => String.append s (str_mul s n')
  end.

Definition nl : string := String "010" EmptyString.

(** ** Module constants *)

Definition PLACEHOLDER_KEY : string := "sk_live_YOUR_SECRET_KEY_HERE".
Definition LOCATION_ID : string := "tml_GKsXoQ8u9cFZJF".
Definition STRIPE_API_URL : string := "https://api.stripe.com/v1".

(** ** The monad of the script: state and exceptions *)

Section Monad.

(** The state of the remote service behind the transport. *)
Variable World : Type.

Record state : Type := State {
  world : World;
  calls : list request;
  stdout : list line
}.

Definition M (A : Type) : Type := state -> state * result A.

Definition ret (A : Type) (a : A) : M A := fun s => (s, Ret a).

Definition raise (A : Type) (e : exn) : M A := fun s => (s, Raise e).

Definition bind (A B : Type) (m : M A) (k : A -> M B) : M B :=
  fun s =>
    match m s with
    | (s', Ret a) => k a s'
    | (s', Raise e) => (s', Raise e)
    end.

Definition lift (A : Type) (r : result A) : M A := fun s => (s, r).

(** [try: body except Exception as e: handler e] *)
Definition try_except (A : Type) (body : M A) (handler : exn -> M A) : M A :=
  fun s =>
    match body s with
    | (s', Raise e) => if is_Exception e then handler e s' else (s', Raise e)
    | done => done
    end.

Definition emit (l : line) (s : state) : state :=
  {| world := world s; calls := calls s; stdout := stdout s ++ [l] |}.

(** [print(l)]: the line is written whole, or not at all. *)
Definition print (l : line) : M unit :=
  fun s => if encodable l then (emit l s, Ret tt) else (s, Raise UnicodeEncodeError).

(** [sys.exit(code)] *)
Definition sys_exit (A : Type) (code : Z) : M A := raise A (SystemExit code).

Fixpoint for_each (A : Type) (body : A -> M unit) (xs : list A) : M unit :=
  match xs with
  | [] => ret tt
  | x :: rest => bind (body x) (fun _ => for_each body rest)
  end.

End Monad.

Arguments ret {World A} a.
Arguments raise {World A} e.
Arguments lift {World A} r.
Arguments print {World} l.
Arguments sys_exit {World A} code.

Declare Scope script_scope.
Notation "x <- m ;; k" := (bind m (fun x => k))
  (at level 61, m at next level, right associativity) : script_scope.
Notation "m ;; k" := (bind m (fun _ => k))
  (at level 61, right associativity) : script_scope.
Local Open Scope script_scope.

(** ** The script *)

Section Script.

(** How the remote service answers a request, and what it becomes. *)
Variable World : Type.
Variable serve : World -> request -> World * outcome.

(** The credential, a constant the operator edits in the source. *)
Variable STRIPE_SECRET_KEY : string.

Definition after (w : World) (rq : request) : World := fst (serve w rq).
Definition answer (w : World) (rq : request) : outcome := snd (serve w rq).

Definition deliver (rq : request) (s : state World) : state World :=
  {| world := after (world s) rq; calls := calls s ++ [rq]; stdout := stdout s |}.

(** One call of the transport: no retry, no timeout argument. *)
Definition send (rq : request) : M World response :=
  fun s =>
    (deliver rq s,
     match answer (world s) rq with
     | Responds r => Ret r
     | Fails msg => Raise (RequestException msg)
     end).

Definition requests_get (url : string) (headers : list (string * string)) : M World response :=
  send {| rq_method := GET; rq_url := url; rq_headers := headers; rq_data := [] |}.

Definition requests_post (url : string) (headers data : list (string * string)) : M World response :=
  send {| rq_method := POST; rq_url := url; rq_headers := headers; rq_data := data |}.

(** *** The three requests *)

Definition bearer : string * string :=
  ("Authorization", String.append "Bearer " STRIPE_SECRET_KEY).

(** The reader registration data of [register_terminal_reader]. *)
Definition reader_data : list (string * string) :=
  [ ("type", "tap_to_pay_android");
    ("location", LOCATION_ID);
    ("label", "Ohr Shalom Donation Kiosk");
    ("metadata[tablet_id]", "ohr-shalom-tablet-001");
    ("metadata[app_version]", "1.8.3-terminal-fixed");
    ("metadata[purpose]", "donation_kiosk") ].

Definition readers_url : string := String.append STRIPE_API_URL "/terminal/readers".

Definition location_url : string :=
  String.append STRIPE_API_URL (String.append "/terminal/locations/" LOCATION_ID).

Definition create_request : request :=
  {| rq_method := POST; rq_url := readers_url;
     rq_headers := [bearer; ("Content-Type", "application/x-www-form-urlencoded")];
     rq_data := reader_data |}.

Definition list_request : request :=
  {| rq_method := GET; rq_url := readers_url; rq_headers := [bearer]; rq_data := [] |}.

Definition location_request : request :=
  {| rq_method := GET; rq_url := location_url; rq_headers := [bearer]; rq_data := [] |}.

(** [data['label']] on the dict of strings *)
Definition data_getitem (data : list (string * string)) (k : string) : result pyval :=
  match dict_get k data with
  | Some x => Ret (PyStr x)
  | None => Raise (KeyError k)
  end.

(** *** register_terminal_reader *)

Definition register_terminal_reader : M World pyval :=
  let headers := [bearer; ("Content-Type", "application/x-www-form-urlencoded")] in
  let data := reader_data in
  print [Lit "🔄 Registering tablet as Terminal reader..."] ;;
  print [Lit "📍 Location: "; Fmt (PyStr LOCATION_ID)] ;;
  label <- lift (data_getitem data "label") ;;
  print [Lit "🏷️  Label: "; Fmt label] ;;
  try_except
    (response <- requests_post readers_url headers data ;;
     if (status_code response =? 200)%Z then
       reader <- lift (json response) ;;
       print [Lit "✅ Terminal reader registered successfully!"] ;;
       id <- lift (getitem reader "id") ;;
       print [Lit "📱 Reader ID: "; Fmt id] ;;
       device_type <- lift (getitem reader "device_type") ;;
       print [Lit "🔗 Device Type: "; Fmt device_type] ;;
       location <- lift (getitem reader "location") ;;
       print [Lit "📍 Location: "; Fmt location] ;;
       status <- lift (getitem reader "status") ;;
       print [Lit "📊 Status: "; Fmt status] ;;
       ret reader
     else
       print [Lit "❌ Registration failed: HTTP "; Fmt (PyInt (status_code response))] ;;
       print [Lit "Error: "; Fmt (PyStr (text response))] ;;
       ret PyNone)
    (fun e =>
       print [Lit "❌ Error registering reader: "; FmtExn e] ;;
       ret PyNone).

(** *** list_existing_readers *)

Definition print_reader (reader : pyval) : M World unit :=
  id <- lift (getitem reader "id") ;;
  label <- lift (getitem reader "label") ;;
  device_type <- lift (getitem reader "device_type") ;;
  print [Lit "  📱 "; Fmt id; Lit " - "; Fmt label; Lit " ("; Fmt device_type; Lit ")"] ;;
  location <- lift (getitem reader "location") ;;
  status <- lift (getitem reader "status") ;;
  print [Lit "     Location: "; Fmt location; Lit " - Status: "; Fmt status].

Definition list_existing_readers : M World pyval :=
  let headers := [bearer] in
  try_except
    (response <- requests_get readers_url headers ;;
     if (status_code response =? 200)%Z then
       readers <- lift (json response) ;;
       found <- lift (getitem readers "data") ;;
       count <- lift (py_len found) ;;
       print [Lit (String.append nl "📋 Found "); Fmt (PyInt count); Lit " existing readers:"] ;;
       found <- lift (getitem readers "data") ;;
       each <- lift (py_iter found) ;;
       for_each print_reader each ;;
       found <- lift (getitem readers "data") ;;
       ret found
     else
       print [Lit "❌ Failed to list readers: HTTP "; Fmt (PyInt (status_code response))] ;;
       ret (PyList []))
    (fun e =>
       print [Lit "❌ Error listing readers: "; FmtExn e] ;;
       ret (PyList [])).

(** *** verify_location *)

Definition verify_location : M World pyval :=
  let headers := [bearer] in
  try_except
    (response <- requests_get location_url headers ;;
     if (status_code response =? 200)%Z then
       location <- lift (json response) ;;
       display_name <- lift (getitem location "display_name") ;;
       print [Lit "✅ Location verified: "; Fmt display_name] ;;
       address <- lift (getitem location "address") ;;
       line1 <- lift (getitem address "line1") ;;
       address <- lift (getitem location "address") ;;
       city <- lift (getitem address "city") ;;
       print [Lit "📍 Address: "; Fmt line1; Lit ", "; Fmt city] ;;
       ret location
     else
       print [Lit "❌ Location verification failed: HTTP "; Fmt (PyInt (status_code response))] ;;
       ret PyNone)
    (fun e =>
       print [Lit "❌ Error verifying location: "; FmtExn e] ;;
       ret PyNone).

(** *** The [__main__] block *)

Definition main : M World unit :=
  print [Lit "🚀 Stripe Terminal Reader Registration"] ;;
  print [Lit (str_mul "=" 50)] ;;
  (if (STRIPE_SECRET_KEY =? "sk_live_YOUR_SECRET_KEY_HERE")%string then
     print [Lit "❌ Please update STRIPE_SECRET_KEY in the script with your actual secret key"] ;;
     sys_exit 1
   else ret tt) ;;
  print [Lit (String.append nl "1️⃣ Verifying location...")] ;;
  location <- verify_location ;;
  (if negb (truthy location) then
     print [Lit "❌ Cannot proceed without valid location"] ;;
     sys_exit 1
   else ret tt) ;;
  print [Lit (String.append nl "2️⃣ Checking existing readers...")] ;;
  existing_readers <- list_existing_readers ;;
  print [Lit (String.append nl "3️⃣ Registering tablet as Terminal reader...")] ;;
  reader <- register_terminal_reader ;;
  if truthy reader then
    print [Lit (String.append nl "🎯 Next Steps:")] ;;
    print [Lit "1. The tablet should now appear in your Stripe Dashboard under Terminal > Readers"] ;;
    id <- lift (getitem reader "id") ;;
    print [Lit "2. Reader ID: "; Fmt id] ;;
    print [Lit "3. Test NFC payment processing on the tablet"] ;;
    print [Lit "4. Check Terminal status in the admin interface"]
  else
    print [Lit (String.append nl "❌ Registration failed. Please check your Stripe credentials and try again.")].

(** The status the interpreter exits with: 0 when the script runs to
    its end, the code of [sys.exit], 1 after an uncaught exception. *)
Definition exit_status (r : result unit) : Z :=
  match r with
  | Ret _ => 0
  | Raise (SystemExit code) => code
  | Raise _ => 1
  end.

Definition run (s : state World) : state World := fst (main s).
Definition exit_code (s : state World) : Z := exit_status (snd (main s)).

End Script.

(** ** Vocabulary of the properties *)

(** The field [k] of a JSON object; nothing when [v] is not an object or
    has no such field. *)
Definition field (k : string) (v : pyval) : option pyval :=
  match v with
  | PyDict items => dict_get k items
  | _ => None
  end.

Definition body_field (k : string) (body : option pyval) : option pyval :=
  match body with
  | Some v => field k v
  | None => None
  end.

(** [address.k] of a location body. *)
Definition address_field (k : string) (body : option pyval) : option pyval :=
  body_field k (body_field "address" body).

Definition present (A : Type) (x : option A) : bool :=
  match x with
  | Some _ => true
  | None => false
  end.

(** The value is there and [print] can write it. *)
Definition shown (x : option pyval) : bool :=
  match x with
  | Some v => printable v
  | None => false
  end.

(** The four fields [register_terminal_reader] reads from a reader. *)
Definition reader_fields : list string := ["id"; "device_type"; "location"; "status"].

(** A call failed: the transport raised, or the status is not 200. *)
Definition call_failed (o : outcome) : bool :=
  match o with
  | Responds r => negb (status_code r =? 200)%Z
  | Fails _ => true
  end.

(** The location lookup found a location with the fields the script
    prints, and they can be printed: what [verify_location] needs to
    return it. *)
Definition location_found (o : outcome) : bool :=
  match o with
  | Responds r =>
      (status_code r =? 200)%Z
      && shown (body_field "display_name" (parsed r))
      && shown (address_field "line1" (parsed r))
      && shown (address_field "city" (parsed r))
  | Fails _ => false
  end.

(** The parsed body of a response, when there is one. *)
Definition outcome_body (o : outcome) : option pyval :=
  match o with
  | Responds r => parsed r
  | Fails _ => None
  end.

(** The create call was answered 200 with a reader that has the four
    fields, and they can be printed: what [register_terminal_reader]
    needs to return it. *)
Definition reader_created (o : outcome) : bool :=
  match o with
  | Responds r =>
      (status_code r =? 200)%Z
      && shown (body_field "id" (parsed r))
      && shown (body_field "device_type" (parsed r))
      && shown (body_field "location" (parsed r))
      && shown (body_field "status" (parsed r))
  | Fails _ => false
  end.

(** Lines by which the script tells the operator that the reader is
    registered, and the line by which [__main__] tells that it is not. *)
Definition registered_line : line := [Lit "✅ Terminal reader registered successfully!"].
Definition next_steps_line : line := [Lit (String.append nl "🎯 Next Steps:")].
Definition failure_line : line :=
  [Lit (String.append nl "❌ Registration failed. Please check your Stripe credentials and try again.")].

Definition claims_success (l : line) : bool :=
  match l with
  | [Lit t] =>
      (t =? "✅ Terminal reader registered successfully!")%string
      || (t =? String.append nl "🎯 Next Steps:")%string
  | _ => false
  end.

Definition reports_failure (l : line) : bool :=
  match l with
  | [Lit t] =>
      (t =? String.append nl "❌ Registration failed. Please check your Stripe credentials and try again.")%string
  | _ => false
  end.

(** A line that tells the operator how the registration ended. *)
Definition verdict (l : line) : bool := claims_success l || reports_failure l.

(** What [register_terminal_reader] prints before its request. *)
Definition register_banner : list line :=
  [ [Lit "🔄 Registering tablet as Terminal reader..."];
    [Lit "📍 Location: "; Fmt (PyStr LOCATION_ID)];
    [Lit "🏷️  Label: "; Fmt (PyStr "Ohr Shalom Donation Kiosk")] ].

(** The lines that show a registered reader's four fields. *)
Definition reader_report (id device_type location status : pyval) : list line :=
  [ registered_line;
    [Lit "📱 Reader ID: "; Fmt id];
    [Lit "🔗 Device Type: "; Fmt device_type];
    [Lit "📍 Location: "; Fmt location];
    [Lit "📊 Status: "; Fmt status] ].

Definition next_steps (id : pyval) : list line :=
  [ next_steps_line;
    [Lit "1. The tablet should now appear in your Stripe Dashboard under Terminal > Readers"];
    [Lit "2. Reader ID: "; Fmt id];
    [Lit "3. Test NFC payment processing on the tablet"];
    [Lit "4. Check Terminal status in the admin interface"] ].

(** What [__main__] prints once [register_terminal_reader] has returned
    [reader]. *)
Definition epilogue (reader : pyval) : list line :=
  if truthy reader then
    match field "id" reader with
    | Some id => next_steps id
    | None => []
    end
  else [failure_line].

(** What [__main__] prints before it calls [verify_location]. *)
Definition main_banner : list line :=
  [ [Lit "🚀 Stripe Terminal Reader Registration"];
    [Lit (str_mul "=" 50)] ].

Definition to_lower (c : ascii) : ascii :=
  let n := nat_of_ascii c in
  if (65 <=? n)%nat && (n <=? 90)%nat then ascii_of_nat (n + 32) else c.

Fixpoint lower (s : string) : string :=
  match s with
  | EmptyString => EmptyString
  | String c rest => String (to_lower c) (lower rest)
  end.

(** The request carries no [Idempotency-Key] header (header names do not
    distinguish case). *)
Definition no_idempotency_key (rq : request) : bool :=
  forallb (fun h => negb (lower (fst h) =? "idempotency-key")%string) (rq_headers rq).

(** A service that makes one new reader for every create request it
    answers with status 200, unless the request carries an idempotency
    key: [readers_of] lists the readers it holds. *)
Definition creates_per_request (World Rid : Type)
    (serve : World -> request -> World * outcome)
    (readers_of : World -> list Rid) : Prop :=
  forall w rq r,
    rq_method rq = POST ->
    rq_url rq = readers_url ->
    no_idempotency_key rq = true ->
    answer serve w rq = Responds r ->
    status_code r = 200%Z ->
    exists id, readers_of (after serve w rq) = readers_of w ++ [id] /\ ~ In id (readers_of w).

(** ** Services to run the script against *)

(** A service that answers the calls it gets with a fixed list of
    outcomes, in order, and refuses connections once the list is used up. *)
Definition scripted (w : list outcome) (rq : request) : list outcome * outcome :=
  match w with
  | [] => ([], Fails "connection refused")
  | o :: rest => (rest, o)
  end.

Definition fresh (w : list outcome) : state (list outcome) :=
  {| world := w; calls := []; stdout := [] |}.

Definition ok (body : pyval) : outcome :=
  Responds {| status_code := 200; text := ""; text_decoded := eq_refl; parsed := Some body |}.

Definition sample_location : pyval :=
  PyDict [ ("id", PyStr "tml_GKsXoQ8u9cFZJF");
           ("display_name", PyStr "Ohr Shalom");
           ("address", PyDict [("line1", PyStr "1 Main Street"); ("city", PyStr "Miami")]) ].

Definition sample_reader : pyval :=
  PyDict [ ("id", PyStr "tmr_123");
           ("device_type", PyStr "tap_to_pay_android");
           ("location", PyStr "tml_GKsXoQ8u9cFZJF");
           ("status", PyStr "online") ].

(** The double quote character. *)
Definition dq : string := String "034" EmptyString.

Definition invalid_metadata : outcome :=
  Responds {| status_code := 400;
              text := String.concat dq ["{"; "error"; ": "; "invalid_metadata"; "}"];
              text_decoded := eq_refl;
              parsed := Some (PyDict [("error", PyStr "invalid_metadata")]) |}.

(** A service that holds a count of readers: every POST makes reader
    number [n] and answers 200 with it, every GET answers an empty list. *)
Definition counting (n : nat) (rq : request) : nat * outcome :=
  match rq_method rq with
  | POST =>
      (S n,
       ok (PyDict [ ("id", PyInt (Z.of_nat n));
                    ("device_type", PyStr "tap_to_pay_android");
                    ("location", PyStr LOCATION_ID);
                    ("status", PyStr "online") ]))
  | GET => (n, ok (PyDict [("data", PyList [])]))
  end.

Definition counted_readers (n : nat) : list nat := seq 0 n.

Definition counting_start : state nat := {| world := 0%nat; calls := []; stdout := [] |}.

(** A service that makes a reader for every POST, like [counting], but
    answers 200 with a body that names no field of the reader. *)
Definition terse (n : nat) (rq : request) : nat * outcome :=
  match rq_method rq with
  | POST => (S n, ok (PyDict [("object", PyStr "terminal.reader")]))
  | GET => (n, ok sample_location)
  end.

Definition operator_key : string := "sk_live_key_of_the_operator".

Definition no_readers : outcome := ok (PyDict [("data", PyList [])]).

Definition not_found : outcome :=
  Responds {| status_code := 404; text := "No such location"; text_decoded := eq_refl; parsed := None |}.

(** The five fields [list_existing_readers] prints of a reader. *)
Definition summary_fields : list string :=
  ["id"; "label"; "device_type"; "location"; "status"].

Definition well_formed_reader (v : pyval) : bool :=
  forallb (fun k => present (field k v)) summary_fields.

(** The reader has the five fields and they can be printed. *)
Definition listable (v : pyval) : bool :=
  forallb (fun k => shown (field k v)) summary_fields.

(** A str that is one lone surrogate, U+D800. *)
Definition lone_surrogate : string := String "237" (String "160" (String "128" EmptyString)).

(** Whether a status code is one of the success codes of HTTP, 2xx. *)
Definition http_success (code : Z) : bool := (200 <=? code)%Z && (code <? 300)%Z.

Definition created_201 (body : pyval) : outcome :=
  Responds {| status_code := 201; text := ""; text_decoded := eq_refl; parsed := Some body |}.

(** The two lines [list_existing_readers] prints for a reader that has
    the five fields. *)
Definition reader_lines (v : pyval) : list line :=
  match field "id" v, field "label" v, field "device_type" v,
        field "location" v, field "status" v with
  | Some id, Some label, Some device_type, Some location, Some status =>
      [ [Lit "  📱 "; Fmt id; Lit " - "; Fmt label; Lit " ("; Fmt device_type; Lit ")"];
        [Lit "     Location: "; Fmt location; Lit " - Status: "; Fmt status] ]
  | _, _, _, _, _ => []
  end.

Definition found_line (count : Z) : line :=
  [Lit (String.append nl "📋 Found "); Fmt (PyInt count); Lit " existing readers:"].

Definition listing_error_line (e : exn) : line :=
  [Lit "❌ Error listing readers: "; FmtExn e].

(** The two lines [verify_location] prints for a location it found. *)
Definition location_report (display_name line1 city : pyval) : list line :=
  [ [Lit "✅ Location verified: "; Fmt display_name];
    [Lit "📍 Address: "; Fmt line1; Lit ", "; Fmt city] ].

Definition second_reader : pyval :=
  PyDict [ ("id", PyStr "tmr_456");
           ("label", PyStr "Front desk");
           ("device_type", PyStr "tap_to_pay_android");
           ("location", PyStr "tml_GKsXoQ8u9cFZJF");
           ("status", PyStr "offline") ].

Definition listed_reader : pyval :=
  PyDict [ ("id", PyStr "tmr_123");
           ("label", PyStr "Ohr Shalom Donation Kiosk");
           ("device_type", PyStr "tap_to_pay_android");
           ("location", PyStr "tml_GKsXoQ8u9cFZJF");
           ("status", PyStr "online") ].

(** ** Properties *)

Section Properties.

Variable World : Type.
Variable serve : World -> request -> World * outcome.
Variable key : string.

(** Unfold one function of the script down to the case analysis it
    makes, leaving the requests and the service folded. *)
Ltac open_script :=
  cbv beta iota zeta delta
    [verify_location list_existing_readers register_terminal_reader
     location_request list_request create_request
     try_except bind lift ret raise print send requests_get requests_post
     json getitem py_len py_iter field body_field address_field present shown
     outcome_body location_found call_failed reader_created].

(** Decide whether the literal lines can be encoded, and bring what is
    left of [encodable] down to [printable] of the values. *)
Ltac eval_literals :=
  repeat match goal with
         | |- context [has_surrogate ?s] =>
             let b := eval vm_compute in (has_surrogate s) in
             lazymatch b with
             | false => change (has_surrogate s) with false
             | true => change (has_surrogate s) with true
             end
         end.

Ltac norm :=
  cbv beta iota;
  cbn [encodable forallb piece_ok andb negb printable];
  eval_literals; rewrite ?text_decoded;
  cbn [andb negb].

Ltac split_on x :=
  lazymatch x with
  | context [match ?y with _ => _ end] => split_on y
  | andb ?a _ => split_on a
  | _ => destruct x eqn:?
  end.

Ltac split_goal :=
  match goal with
  | |- context [match ?x with _ => _ end] => split_on x; norm
  end.

Ltac settle :=
  repeat split; cbn [stdout emit deliver world calls app];
  rewrite <- ?app_assoc; try reflexivity; try discriminate;
  try first [left; reflexivity | right; reflexivity].

Ltac finish := do 3 eexists; split; [reflexivity | settle].

Lemma truthy_dict (k : string) (items : list (string * pyval)) (v : pyval) :
  dict_get k items = Some v -> truthy (PyDict items) = true.
Proof. destruct items; [discriminate | reflexivity]. Qed.

Lemma existsb_app_false (A : Type) (f : A -> bool) (xs ys : list A) :
  existsb f xs = false -> existsb f ys = false -> existsb f (xs ++ ys) = false.
Proof. intros Hx Hy. rewrite existsb_app, Hx, Hy. reflexivity. Qed.

Lemma world_emit (l : line) (s : state World) : world (emit l s) = world s.
Proof. reflexivity. Qed.

(** *** verify_location *)

Lemma verify_location_spec (s : state World) :
  exists s' v new,
    verify_location serve key s = (s', Ret v) /\
    world s' = after serve (world s) (location_request key) /\
    calls s' = calls s ++ [location_request key] /\
    stdout s' = stdout s ++ new /\
    existsb verdict new = false /\
    (if location_found (answer serve (world s) (location_request key))
     then outcome_body (answer serve (world s) (location_request key)) = Some v
          /\ truthy v = true
     else v = PyNone).
Proof.
  open_script. norm.
  repeat split_goal; try discriminate.
  all: try solve [finish].
  finish. eapply truthy_dict; eassumption.
Qed.

(** *** list_existing_readers *)

Lemma print_reader_spec (reader : pyval) (s : state World) :
  exists s' res new,
    print_reader reader s = (s', res) /\
    world s' = world s /\
    calls s' = calls s /\
    stdout s' = stdout s ++ new /\
    existsb verdict new = false /\
    (forall e, res = Raise e -> is_Exception e = true).
Proof.
  unfold print_reader. open_script.
  repeat split_goal.
  all: do 3 eexists; split; [reflexivity | settle].
  all: try (rewrite app_nil_r; reflexivity).
  all: try reflexivity.
  all: intros ? [= <-]; reflexivity.
Qed.

Lemma for_each_print_reader_spec (readers : list pyval) (s : state World) :
  exists s' res new,
    for_each (@print_reader World) readers s = (s', res) /\
    world s' = world s /\
    calls s' = calls s /\
    stdout s' = stdout s ++ new /\
    existsb verdict new = false /\
    (forall e, res = Raise e -> is_Exception e = true).
Proof.
  revert s. induction readers as [|reader rest IH]; intros s.
  - exists s, (Ret tt), []. cbn. rewrite app_nil_r. repeat split. discriminate.
  - cbn [for_each]. unfold bind at 1.
    destruct (print_reader_spec reader s) as (s1 & res & new1 & -> & Hw & Hc & Ho & Hq & He).
    destruct res as [[]|e].
    + destruct (IH s1) as (s2 & res2 & new2 & -> & Hw2 & Hc2 & Ho2 & Hq2 & He2).
      exists s2, res2, (new1 ++ new2).
      rewrite Hw2, Hc2, Ho2, Hw, Hc, Ho, app_assoc.
      repeat split; auto using existsb_app_false.
    + exists s1, (Raise e), new1. repeat split; auto.
Qed.

Lemma list_existing_readers_spec (s : state World) :
  exists s' v new,
    list_existing_readers serve key s = (s', Ret v) /\
    world s' = after serve (world s) (list_request key) /\
    calls s' = calls s ++ [list_request key] /\
    stdout s' = stdout s ++ new /\
    existsb verdict new = false /\
    (call_failed (answer serve (world s) (list_request key)) = true -> v = PyList []) /\
    (v = PyList [] \/
     body_field "data" (outcome_body (answer serve (world s) (list_request key))) = Some v).
Proof.
  open_script.
  repeat
    match goal with
    | |- context [for_each (@print_reader World) ?xs ?st] =>
        destruct (for_each_print_reader_spec xs st) as (? & ? & ? & -> & ? & ? & ? & ? & ?);
        cbv beta iota
    | _ => split_goal
    end; try discriminate.
  all: try solve [finish].
  all: try match goal with
       | H : forall e, Raise ?e0 = Raise e -> is_Exception e = true,
         E : is_Exception ?e0 = false |- _ =>
           rewrite (H _ eq_refl) in E; discriminate
       end.
  all: do 3 eexists; split; [reflexivity|]; cbn [stdout emit world calls];
    repeat match goal with
           | H : world ?x = _ |- context [world ?x] => rewrite H
           | H : calls ?x = _ |- context [calls ?x] => rewrite H
           | H : stdout ?x = _ |- context [stdout ?x] => rewrite H
           end;
    settle.
  all: rewrite ?existsb_app;
    match goal with H : existsb _ _ = false |- _ => rewrite H end; reflexivity.
Qed.

(** *** register_terminal_reader *)

Lemma register_terminal_reader_spec (s : state World) :
  exists s' v new,
    register_terminal_reader serve key s = (s', Ret v) /\
    world s' = after serve (world s) (create_request key) /\
    calls s' = calls s ++ [create_request key] /\
    stdout s' = stdout s ++ register_banner ++ new /\
    (call_failed (answer serve (world s) (create_request key)) = true ->
     existsb claims_success new = false) /\
    (if reader_created (answer serve (world s) (create_request key))
     then outcome_body (answer serve (world s) (create_request key)) = Some v
          /\ truthy v = true
          /\ exists id device_type location status,
               field "id" v = Some id
               /\ field "device_type" v = Some device_type
               /\ field "location" v = Some location
               /\ field "status" v = Some status
               /\ new = reader_report id device_type location status
               /\ printable id = true
     else v = PyNone).
Proof.
  open_script.
  change (data_getitem reader_data "label") with (Ret (PyStr "Ohr Shalom Donation Kiosk")).
  norm. rewrite !world_emit.
  repeat split_goal; try discriminate.
  all: do 3 eexists; split; [reflexivity | settle].
  - eapply truthy_dict; eassumption.
  - do 4 eexists; repeat split; try eassumption; reflexivity.
Qed.

(** *** The [__main__] block *)

Ltac open_main :=
  unfold main;
  cbv beta iota delta [bind print ret raise sys_exit lift];
  norm.

Ltac rewrite_state :=
  repeat match goal with
         | H : world ?x = _ |- context [world ?x] => rewrite H
         | H : calls ?x = _ |- context [calls ?x] => rewrite H
         | H : stdout ?x = _ |- context [stdout ?x] => rewrite H
         end.

Lemma key_check (k : string) :
  k <> PLACEHOLDER_KEY -> (k =? "sk_live_YOUR_SECRET_KEY_HERE")%string = false.
Proof. intros H. apply String.eqb_neq. exact H. Qed.

Lemma main_placeholder (s : state World) :
  main serve PLACEHOLDER_KEY s =
    (emit [Lit "❌ Please update STRIPE_SECRET_KEY in the script with your actual secret key"]
       (emit [Lit (str_mul "=" 50)]
          (emit [Lit "🚀 Stripe Terminal Reader Registration"] s)),
     Raise (SystemExit 1)).
Proof. reflexivity. Qed.

Lemma main_aborts (s : state World) :
  key <> PLACEHOLDER_KEY ->
  location_found (answer serve (world s) (location_request key)) = false ->
  exists s',
    main serve key s = (s', Raise (SystemExit 1)) /\
    world s' = after serve (world s) (location_request key) /\
    calls s' = calls s ++ [location_request key].
Proof.
  intros Hkey Hloc. open_main. rewrite (key_check Hkey). cbv beta iota.
  match goal with
  | |- context [verify_location serve key ?st] =>
      destruct (verify_location_spec st) as (s2 & v & new & -> & Hw & Hc & Ho & Hq & Hv)
  end.
  rewrite !world_emit in Hv, Hw. rewrite Hloc in Hv. subst v.
  cbn [truthy negb]. eexists; split; [reflexivity|].
  cbn [world calls emit]. rewrite_state. split; reflexivity.
Qed.

Lemma main_completes (s : state World) :
  key <> PLACEHOLDER_KEY ->
  location_found (answer serve (world s) (location_request key)) = true ->
  let w2 := after serve (after serve (world s) (location_request key)) (list_request key) in
  exists s' pre v new,
    main serve key s = (s', Ret tt) /\
    world s' = after serve w2 (create_request key) /\
    calls s' = calls s ++ [location_request key; list_request key; create_request key] /\
    stdout s' = stdout s ++ pre ++ register_banner ++ new ++ epilogue v /\
    existsb verdict pre = false /\
    (call_failed (answer serve w2 (create_request key)) = true ->
     existsb claims_success new = false) /\
    (if reader_created (answer serve w2 (create_request key))
     then outcome_body (answer serve w2 (create_request key)) = Some v
          /\ truthy v = true
          /\ exists id device_type location status,
               field "id" v = Some id
               /\ field "device_type" v = Some device_type
               /\ field "location" v = Some location
               /\ field "status" v = Some status
               /\ new = reader_report id device_type location status
               /\ printable id = true
     else v = PyNone).
Proof.
  intros Hkey Hloc w2. subst w2. open_main. rewrite (key_check Hkey). cbv beta iota.
  match goal with
  | |- context [verify_location serve key ?st] =>
      destruct (verify_location_spec st) as (s2 & v1 & new1 & -> & Hw1 & Hc1 & Ho1 & Hq1 & Hv1)
  end.
  rewrite !world_emit in Hv1, Hw1. rewrite Hloc in Hv1. destruct Hv1 as [_ Hv1].
  rewrite Hv1. cbv beta iota delta [negb].
  match goal with
  | |- context [list_existing_readers serve key ?st] =>
      destruct (list_existing_readers_spec st) as (s3 & v2 & new2 & -> & Hw2 & Hc2 & Ho2 & Hq2 & _ & _)
  end.
  rewrite !world_emit in Hw2. rewrite Hw1 in Hw2.
  match goal with
  | |- context [register_terminal_reader serve key ?st] =>
      destruct (register_terminal_reader_spec st) as (s4 & v & new & -> & Hw3 & Hc3 & Ho3 & Hq3 & Hv)
  end.
  rewrite !world_emit in Hw3, Hq3, Hv. rewrite Hw2 in Hw3, Hq3, Hv.
  cbn [calls stdout emit] in Hc1, Ho1, Hc2, Ho2, Hc3, Ho3.
  rewrite Hc1 in Hc2. rewrite Hc2 in Hc3. rewrite Ho1 in Ho2. rewrite Ho2 in Ho3.
  set (pre := main_banner ++ [[Lit (nl ++ "1️⃣ Verifying location...")]] ++ new1
              ++ [[Lit (nl ++ "2️⃣ Checking existing readers...")]] ++ new2
              ++ [[Lit (nl ++ "3️⃣ Registering tablet as Terminal reader...")]]).
  assert (Hpre : existsb verdict pre = false).
  { subst pre. rewrite !existsb_app, Hq1, Hq2. reflexivity. }
  destruct (reader_created _) eqn:Hcreated.
  - destruct Hv as (Hbody & Htruthy & id & device_type & location & status
                    & Hid & Hdt & Hloc' & Hst & Hnew & Hpid).
    assert (Hget : getitem v "id" = Ret id).
    { destruct v; try discriminate. cbn in Hid |- *. rewrite Hid. reflexivity. }
    rewrite Htruthy, Hget. cbv beta iota. rewrite Hpid. cbn [andb].
    eexists; exists pre, v, new. split; [reflexivity|].
    cbn [world calls stdout emit]. rewrite Hw3, Hc3, Ho3.
    unfold epilogue. rewrite Htruthy, Hid.
    repeat split; auto.
    + rewrite <- !app_assoc. reflexivity.
    + subst pre. unfold main_banner, next_steps, next_steps_line.
      rewrite <- !app_assoc. reflexivity.
    + exists id, device_type, location, status. repeat split; auto.
  - subst v. cbn [truthy].
    eexists; exists pre, PyNone, new. split; [reflexivity|].
    cbn [world calls stdout emit]. rewrite Hw3, Hc3, Ho3.
    repeat split; auto.
    + rewrite <- !app_assoc. reflexivity.
    + subst pre. unfold main_banner, epilogue, failure_line. cbn [truthy].
      rewrite <- !app_assoc. reflexivity.
Qed.

(** *** Consequences used by the claims *)

Lemma call_failed_not_found (o : outcome) :
  call_failed o = true -> location_found o = false.
Proof.
  destruct o as [r|msg]; cbn; [|reflexivity].
  intros H. apply negb_true_iff in H. rewrite H. reflexivity.
Qed.

Lemma call_failed_not_created (o : outcome) :
  call_failed o = true -> reader_created o = false.
Proof.
  destruct o as [r|msg]; cbn; [|reflexivity].
  intros H. apply negb_true_iff in H. rewrite H. reflexivity.
Qed.

Lemma verdict_free (out : list line) :
  existsb verdict out = false ->
  existsb claims_success out = false /\ existsb reports_failure out = false.
Proof.
  induction out as [|l out IH]; cbn; [auto|].
  unfold verdict at 1. intros H.
  apply orb_false_iff in H. destruct H as [H Hout].
  apply orb_false_iff in H. destruct H as [Hs Hf].
  destruct (IH Hout) as [IHs IHf]. rewrite Hs, Hf, IHs, IHf. auto.
Qed.

Lemma requests_differ :
  location_request key <> list_request key
  /\ location_request key <> create_request key
  /\ list_request key <> create_request key.
Proof. repeat split; discriminate. Qed.

Lemma missing_field_not_created (r : response) :
  (parsed r = None \/ exists k, In k reader_fields /\ body_field k (parsed r) = None) ->
  reader_created (Responds r) = false.
Proof.
  intros [H | (k & Hk & H)]; cbn.
  - rewrite H. cbn. apply andb_false_r.
  - cbn in Hk.
    destruct Hk as [<- | [<- | [<- | [<- | []]]]]; rewrite H; cbn;
      rewrite ?andb_false_r; reflexivity.
Qed.

Lemma missing_field_not_found (r : response) :
  (body_field "display_name" (parsed r) = None
   \/ address_field "line1" (parsed r) = None
   \/ address_field "city" (parsed r) = None) ->
  location_found (Responds r) = false.
Proof.
  intros [H | [H | H]]; cbn; rewrite H; cbn; rewrite ?andb_false_r; reflexivity.
Qed.

Lemma verify_location_absent (s : state World) :
  location_found (answer serve (world s) (location_request key)) = false ->
  snd (verify_location serve key s) = Ret PyNone.
Proof.
  intros H.
  destruct (verify_location_spec s) as (s' & v & new & -> & _ & _ & _ & _ & Hv).
  rewrite H in Hv. subst v. reflexivity.
Qed.

Lemma main_aborts_status (s : state World) :
  key <> PLACEHOLDER_KEY ->
  location_found (answer serve (world s) (location_request key)) = false ->
  exit_code serve key s = 1%Z
  /\ calls (run serve key s) = calls s ++ [location_request key]
  /\ world (run serve key s) = after serve (world s) (location_request key).
Proof.
  intros Hkey H. unfold exit_code, run.
  destruct (main_aborts s Hkey H) as (s' & -> & Hw & Hc). auto.
Qed.

(** ** The claims *)

(** C1: with the credential still at its placeholder value, the program
    exits with status 1 and makes no network call: the list of requests
    handed to the transport and the remote service are as before the
    run. *)
Theorem placeholder_key_exits_before_any_call (s : state World) :
  key = PLACEHOLDER_KEY ->
  exit_code serve key s = 1%Z
  /\ calls (run serve key s) = calls s
  /\ world (run serve key s) = world s.
Proof.
  intros ->. unfold exit_code, run. rewrite main_placeholder. auto.
Qed.

(** C2: when the location lookup fails (the transport raises, or the
    status is not 200), [verify_location] returns [None] and the run exits
    with status 1 having made the location request only: neither the list
    request nor the create request is issued. *)
Theorem location_failure_aborts_workflow (s : state World) :
  key <> PLACEHOLDER_KEY ->
  call_failed (answer serve (world s) (location_request key)) = true ->
  snd (verify_location serve key s) = Ret PyNone
  /\ exit_code serve key s = 1%Z
  /\ calls (run serve key s) = calls s ++ [location_request key]
  /\ location_request key <> list_request key
  /\ location_request key <> create_request key.
Proof.
  intros Hkey Hfail. apply call_failed_not_found in Hfail.
  destruct (main_aborts_status s Hkey Hfail) as (Hexit & Hcalls & _).
  destruct requests_differ as (Hl & Hc & _).
  auto using verify_location_absent.
Qed.

(** C3: when the location is verified and the list call fails (the
    transport raises, or the status is not 200), [list_existing_readers]
    returns the empty list and the run goes on to issue the create
    request. *)
Theorem enumeration_failure_is_not_fatal (s : state World) :
  key <> PLACEHOLDER_KEY ->
  location_found (answer serve (world s) (location_request key)) = true ->
  let w1 := after serve (world s) (location_request key) in
  call_failed (answer serve w1 (list_request key)) = true ->
  (forall s1, world s1 = w1 -> snd (list_existing_readers serve key s1) = Ret (PyList []))
  /\ calls (run serve key s)
     = calls s ++ [location_request key; list_request key; create_request key]
  /\ rq_method (create_request key) = POST.
Proof.
  intros Hkey Hloc w1 Hfail. repeat split.
  - intros s1 Hs1.
    destruct (list_existing_readers_spec s1) as (s' & v & new & -> & _ & _ & _ & _ & Hv & _).
    rewrite Hs1 in Hv. rewrite (Hv Hfail). reflexivity.
  - unfold run.
    destruct (main_completes s Hkey Hloc) as (s' & pre & v & new & -> & _ & Hc & _).
    exact Hc.
Qed.

Lemma created_of_fields (o : outcome) (r : response) (reader id device_type location status : pyval) :
  o = Responds r ->
  status_code r = 200%Z ->
  parsed r = Some reader ->
  field "id" reader = Some id ->
  field "device_type" reader = Some device_type ->
  field "location" reader = Some location ->
  field "status" reader = Some status ->
  printable id = true ->
  printable device_type = true ->
  printable location = true ->
  printable status = true ->
  reader_created o = true.
Proof.
  intros -> Hst Hp Hi Hd Hl Hs Pi Pd Pl Ps. cbn. rewrite Hst, Hp. cbn.
  rewrite Hi, Hd, Hl, Hs. cbn. rewrite Pi, Pd, Pl, Ps. reflexivity.
Qed.

(** C4, as amended: when the create call is answered with status 200
    (the one status the script takes for success) and a body that has the
    fields id, device_type, location and status, each of which can be
    printed, [register_terminal_reader] returns that body (not [None])
    after printing the four values, and the run ends with the next steps,
    never printing the failure line, and exits with status 0. *)
Theorem successful_registration_is_surfaced
    (s : state World) (r : response) (reader id device_type location status : pyval) :
  key <> PLACEHOLDER_KEY ->
  location_found (answer serve (world s) (location_request key)) = true ->
  let w2 := after serve (after serve (world s) (location_request key)) (list_request key) in
  answer serve w2 (create_request key) = Responds r ->
  status_code r = 200%Z ->
  parsed r = Some reader ->
  field "id" reader = Some id ->
  field "device_type" reader = Some device_type ->
  field "location" reader = Some location ->
  field "status" reader = Some status ->
  printable id = true ->
  printable device_type = true ->
  printable location = true ->
  printable status = true ->
  (forall s2, world s2 = w2 ->
     snd (register_terminal_reader serve key s2) = Ret reader
     /\ stdout (fst (register_terminal_reader serve key s2))
        = stdout s2 ++ register_banner ++ reader_report id device_type location status)
  /\ reader <> PyNone
  /\ exit_code serve key s = 0%Z
  /\ exists pre,
       stdout (run serve key s)
       = stdout s ++ pre ++ register_banner
           ++ reader_report id device_type location status ++ next_steps id
       /\ existsb verdict pre = false
       /\ existsb reports_failure
            (pre ++ register_banner
               ++ reader_report id device_type location status ++ next_steps id) = false.
Proof.
  intros Hkey Hloc w2 Ho Hst Hp Hi Hd Hl Hs Pi Pd Pl Ps.
  pose proof (created_of_fields Ho Hst Hp Hi Hd Hl Hs Pi Pd Pl Ps) as Hcreated.
  repeat split.
  - destruct (register_terminal_reader_spec s2) as (s' & v & new & -> & _ & _ & _ & _ & Hv).
    rewrite H, Hcreated, Ho in Hv. cbn in Hv. destruct Hv as (Hb & _).
    cbn. congruence.
  - destruct (register_terminal_reader_spec s2) as (s' & v & new & -> & _ & _ & Hout & _ & Hv).
    rewrite H, Hcreated, Ho in Hv. cbn in Hv.
    destruct Hv as (Hb & _ & id' & dt' & loc' & st' & Hi' & Hd' & Hl' & Hs' & -> & _).
    assert (v = reader) by congruence. subst v.
    cbn [fst]. rewrite Hout. repeat f_equal; congruence.
  - intros ->. discriminate.
  - unfold exit_code.
    destruct (main_completes s Hkey Hloc) as (s' & pre & v & new & -> & _). reflexivity.
  - unfold run.
    destruct (main_completes s Hkey Hloc)
      as (s' & pre & v & new & -> & _ & _ & Hout & Hpre & _ & Hv).
    fold w2 in Hv. rewrite Hcreated, Ho in Hv. cbn in Hv.
    destruct Hv as (Hb & Ht & id' & dt' & loc' & st' & Hi' & Hd' & Hl' & Hs' & -> & _).
    assert (v = reader) by congruence. subst v.
    assert (id' = id) by congruence. assert (dt' = device_type) by congruence.
    assert (loc' = location) by congruence. assert (st' = status) by congruence.
    subst id' dt' loc' st'.
    exists pre. cbn [fst]. rewrite Hout. unfold epilogue. rewrite Ht, Hi.
    repeat split; auto.
    rewrite existsb_app. destruct (verdict_free _ Hpre) as [_ ->]. reflexivity.
Qed.

(** C5: when the create call fails (the transport raises, or the status
    is not 200, as with 400 invalid_metadata), [register_terminal_reader]
    returns [None], and the run prints no line that claims success and
    ends on the failure line. *)
Theorem failed_registration_is_reported (s : state World) :
  key <> PLACEHOLDER_KEY ->
  location_found (answer serve (world s) (location_request key)) = true ->
  let w2 := after serve (after serve (world s) (location_request key)) (list_request key) in
  call_failed (answer serve w2 (create_request key)) = true ->
  (forall s2, world s2 = w2 -> snd (register_terminal_reader serve key s2) = Ret PyNone)
  /\ exists out,
       stdout (run serve key s) = stdout s ++ out
       /\ existsb claims_success out = false
       /\ last out [] = failure_line.
Proof.
  intros Hkey Hloc w2 Hfail.
  pose proof (call_failed_not_created _ Hfail) as Hnot.
  split.
  - intros s2 Hs2.
    destruct (register_terminal_reader_spec s2) as (s' & v & new & -> & _ & _ & _ & _ & Hv).
    rewrite Hs2, Hnot in Hv. subst v. reflexivity.
  - unfold run.
    destruct (main_completes s Hkey Hloc)
      as (s' & pre & v & new & -> & _ & _ & Hout & Hpre & Hq & Hv).
    fold w2 in Hv, Hq. rewrite Hnot in Hv. subst v.
    exists (pre ++ register_banner ++ new ++ epilogue PyNone).
    cbn [fst]. repeat split; [exact Hout | |].
    + rewrite !existsb_app. destruct (verdict_free _ Hpre) as [-> _].
      rewrite (Hq Hfail). reflexivity.
    + change (epilogue PyNone) with [failure_line].
      rewrite !app_assoc. apply last_last.
Qed.

(** C6: with a credential that is not the placeholder and a verified
    location, the run exits with status 0 whatever the list call and the
    create call do. *)
Theorem verified_location_exits_zero (s : state World) :
  key <> PLACEHOLDER_KEY ->
  location_found (answer serve (world s) (location_request key)) = true ->
  exit_code serve key s = 0%Z.
Proof.
  intros Hkey Hloc. unfold exit_code.
  destruct (main_completes s Hkey Hloc) as (s' & pre & v & new & -> & _). reflexivity.
Qed.

Lemma register_calls (s : state World) :
  calls (fst (register_terminal_reader serve key s)) = calls s ++ [create_request key]
  /\ world (fst (register_terminal_reader serve key s))
     = after serve (world s) (create_request key).
Proof.
  destruct (register_terminal_reader_spec s) as (s' & v & new & -> & Hw & Hc & _). auto.
Qed.

(** C7: every call of [register_terminal_reader] hands exactly one
    request to the transport, a POST without idempotency key, whatever the
    answer; two calls hand over the same request twice, and a service that
    makes a reader for each such request it answers with 200 then holds
    two new, distinct readers. *)
Theorem register_twice_creates_two_readers
    (Rid : Type) (readers_of : World -> list Rid) (s : state World) :
  creates_per_request serve readers_of ->
  let s1 := fst (register_terminal_reader serve key s) in
  let s2 := fst (register_terminal_reader serve key s1) in
  (forall s0, calls (fst (register_terminal_reader serve key s0))
              = calls s0 ++ [create_request key])
  /\ rq_method (create_request key) = POST
  /\ no_idempotency_key (create_request key) = true
  /\ calls s2 = calls s ++ [create_request key; create_request key]
  /\ (forall r1 r2,
        answer serve (world s) (create_request key) = Responds r1 ->
        status_code r1 = 200%Z ->
        answer serve (world s1) (create_request key) = Responds r2 ->
        status_code r2 = 200%Z ->
        exists a b, readers_of (world s2) = readers_of (world s) ++ [a; b] /\ a <> b).
Proof.
  intros Hserve s1 s2.
  destruct (register_calls s) as [Hc1 Hw1]. fold s1 in Hc1, Hw1.
  destruct (register_calls s1) as [Hc2 Hw2]. fold s2 in Hc2, Hw2.
  split; [intros s0; apply register_calls|].
  split; [reflexivity|]. split; [reflexivity|].
  split; [rewrite Hc2, Hc1, <- app_assoc; reflexivity|].
  intros r1 r2 Ho1 Hst1 Ho2 Hst2.
  destruct (Hserve (world s) (create_request key) r1) as (a & Ha & Hfresh_a);
    try reflexivity; auto.
  destruct (Hserve (world s1) (create_request key) r2) as (b & Hb & Hfresh_b);
    try reflexivity; auto.
  exists a, b. rewrite Hw2, Hb, Hw1, Ha, <- app_assoc. split; [reflexivity|].
  intros ->. apply Hfresh_b. rewrite Hw1, Ha. apply in_or_app. right. left. reflexivity.
Qed.

(** C8: when the create call is answered 200 but the body is not JSON or
    lacks one of id, device_type, location and status,
    [register_terminal_reader] returns [None] although the request reached
    the service, which has made of it what it makes of a create request;
    the run ends on the failure line. *)
Theorem unusable_success_body_reports_failure (s : state World) (r : response) :
  key <> PLACEHOLDER_KEY ->
  location_found (answer serve (world s) (location_request key)) = true ->
  let w2 := after serve (after serve (world s) (location_request key)) (list_request key) in
  answer serve w2 (create_request key) = Responds r ->
  status_code r = 200%Z ->
  (parsed r = None \/ exists k, In k reader_fields /\ body_field k (parsed r) = None) ->
  (forall s2, world s2 = w2 ->
     snd (register_terminal_reader serve key s2) = Ret PyNone
     /\ calls (fst (register_terminal_reader serve key s2)) = calls s2 ++ [create_request key]
     /\ world (fst (register_terminal_reader serve key s2)) = after serve w2 (create_request key))
  /\ world (run serve key s) = after serve w2 (create_request key)
  /\ exists out,
       stdout (run serve key s) = stdout s ++ out
       /\ last out [] = failure_line.
Proof.
  intros Hkey Hloc w2 Ho Hst Hbad.
  pose proof (missing_field_not_created r Hbad) as Hnot. rewrite <- Ho in Hnot.
  split; [|split].
  - intros s2 Hs2.
    destruct (register_calls s2) as [Hc Hw]. rewrite Hs2 in Hw.
    split; [|auto].
    destruct (register_terminal_reader_spec s2) as (s' & v & new & -> & _ & _ & _ & _ & Hv).
    rewrite Hs2, Hnot in Hv. subst v. reflexivity.
  - unfold run.
    destruct (main_completes s Hkey Hloc) as (s' & pre & v & new & -> & Hw & _). exact Hw.
  - unfold run.
    destruct (main_completes s Hkey Hloc)
      as (s' & pre & v & new & -> & _ & _ & Hout & _ & _ & Hv).
    fold w2 in Hv. rewrite Hnot in Hv. subst v.
    exists (pre ++ register_banner ++ new ++ epilogue PyNone).
    cbn [fst]. split; [exact Hout|].
    change (epilogue PyNone) with [failure_line].
    rewrite !app_assoc. apply last_last.
Qed.

(** C9: when the location lookup is answered 200 but the body lacks
    display_name, address.line1 or address.city, [verify_location] returns
    [None] and the run exits with status 1 after that one request. *)
Theorem incomplete_location_aborts_workflow (s : state World) (r : response) :
  key <> PLACEHOLDER_KEY ->
  answer serve (world s) (location_request key) = Responds r ->
  status_code r = 200%Z ->
  (body_field "display_name" (parsed r) = None
   \/ address_field "line1" (parsed r) = None
   \/ address_field "city" (parsed r) = None) ->
  snd (verify_location serve key s) = Ret PyNone
  /\ exit_code serve key s = 1%Z
  /\ calls (run serve key s) = calls s ++ [location_request key].
Proof.
  intros Hkey Ho Hst Hbad.
  pose proof (missing_field_not_found r Hbad) as Hnot. rewrite <- Ho in Hnot.
  destruct (main_aborts_status s Hkey Hnot) as (Hexit & Hcalls & _).
  auto using verify_location_absent.
Qed.

(** C10: none of the three operations lets an exception out: from every
    state and against every service each returns a value, which is the
    parsed body or [None] for [verify_location] and
    [register_terminal_reader], and the [data] of the parsed body or the
    empty list for [list_existing_readers]. *)
Theorem operations_always_return (s : state World) :
  (exists v, snd (verify_location serve key s) = Ret v
             /\ (v = PyNone
                 \/ outcome_body (answer serve (world s) (location_request key)) = Some v))
  /\ (exists v, snd (list_existing_readers serve key s) = Ret v
                /\ (v = PyList []
                    \/ body_field "data"
                         (outcome_body (answer serve (world s) (list_request key))) = Some v))
  /\ (exists v, snd (register_terminal_reader serve key s) = Ret v
                /\ (v = PyNone
                    \/ outcome_body (answer serve (world s) (create_request key)) = Some v)).
Proof.
  repeat split.
  - destruct (verify_location_spec s) as (s' & v & new & -> & _ & _ & _ & _ & Hv).
    exists v. split; [reflexivity|].
    destruct (location_found _); [right; apply Hv | left; exact Hv].
  - destruct (list_existing_readers_spec s) as (s' & v & new & -> & _ & _ & _ & _ & _ & Hv).
    exists v. auto.
  - destruct (register_terminal_reader_spec s) as (s' & v & new & -> & _ & _ & _ & _ & Hv).
    exists v. split; [reflexivity|].
    destruct (reader_created _); [right; apply Hv | left; exact Hv].
Qed.

(** [verify_location] returns a value that [__main__] takes for a
    location exactly when the lookup found one with the fields printed. *)
Lemma verify_location_truthy_iff (s : state World) (v : pyval) :
  snd (verify_location serve key s) = Ret v ->
  truthy v = location_found (answer serve (world s) (location_request key)).
Proof.
  destruct (verify_location_spec s) as (s' & v' & new & -> & _ & _ & _ & _ & Hv).
  cbn. intros [= ->].
  destruct (location_found _); [apply Hv | subst v; reflexivity].
Qed.

(** ** Further properties of the three operations *)

(** *** The loop over the listed readers *)

Lemma listable_well_formed (reader : pyval) :
  listable reader = true -> well_formed_reader reader = true.
Proof.
  unfold listable, well_formed_reader.
  induction summary_fields as [|k ks IH]; [reflexivity|].
  cbn [forallb]. intros H. apply andb_prop in H. destruct H as [Hk Hks].
  rewrite (IH Hks). destruct (field k reader); [reflexivity | discriminate].
Qed.

Lemma all_listable_well_formed (readers : list pyval) :
  forallb listable readers = true -> forallb well_formed_reader readers = true.
Proof.
  induction readers as [|reader rest IH]; [reflexivity|].
  cbn [forallb]. intros H. apply andb_prop in H. destruct H as [Hr Hrest].
  rewrite (listable_well_formed _ Hr), (IH Hrest). reflexivity.
Qed.

Lemma print_reader_good (reader : pyval) (s : state World) :
  listable reader = true ->
  exists s',
    print_reader reader s = (s', Ret tt) /\
    world s' = world s /\
    calls s' = calls s /\
    stdout s' = stdout s ++ reader_lines reader.
Proof.
  unfold print_reader, reader_lines.
  cbv beta iota delta [listable summary_fields forallb]. open_script. norm.
  repeat split_goal; try discriminate.
  all: try (rewrite ?andb_false_r; discriminate).
  intros _. eexists; split; [reflexivity | settle].
Qed.

Lemma print_reader_bad (reader : pyval) (s : state World) :
  listable reader = false ->
  exists s' e partial,
    print_reader reader s = (s', Raise e) /\
    is_Exception e = true /\
    world s' = world s /\
    calls s' = calls s /\
    stdout s' = stdout s ++ partial /\
    (length partial <= 1)%nat.
Proof.
  unfold print_reader.
  cbv beta iota delta [listable summary_fields forallb]. open_script. norm.
  repeat split_goal; try discriminate.
  all: try (rewrite ?andb_true_r; discriminate).
  all: intros _; do 3 eexists; split; [reflexivity | settle].
  all: try (rewrite app_nil_r; reflexivity).
  all: cbn; lia.
Qed.

Lemma for_each_good (readers : list pyval) (s : state World) :
  forallb listable readers = true ->
  exists s',
    for_each (@print_reader World) readers s = (s', Ret tt) /\
    world s' = world s /\
    calls s' = calls s /\
    stdout s' = stdout s ++ flat_map reader_lines readers.
Proof.
  revert s. induction readers as [|reader rest IH]; intros s Hall.
  - exists s. cbn. rewrite app_nil_r. auto.
  - cbn [forallb] in Hall. apply andb_prop in Hall. destruct Hall as [Hr Hrest].
    cbn [for_each flat_map]. unfold bind at 1.
    destruct (@print_reader_good reader s Hr) as (s1 & -> & Hw & Hc & Ho).
    destruct (IH s1 Hrest) as (s2 & -> & Hw2 & Hc2 & Ho2).
    exists s2. rewrite Hw2, Hc2, Ho2, Hw, Hc, Ho, app_assoc. auto.
Qed.

Lemma for_each_stops (good rest : list pyval) (bad : pyval) (s : state World) :
  forallb listable good = true ->
  listable bad = false ->
  exists s' e partial,
    for_each (@print_reader World) (good ++ bad :: rest) s = (s', Raise e) /\
    is_Exception e = true /\
    world s' = world s /\
    calls s' = calls s /\
    stdout s' = stdout s ++ flat_map reader_lines good ++ partial /\
    (length partial <= 1)%nat.
Proof.
  intros Hgood Hbad. revert s Hgood.
  induction good as [|reader good IH]; intros s Hgood.
  - cbn [app for_each flat_map]. unfold bind at 1.
    destruct (@print_reader_bad bad s Hbad) as (s' & e & partial & -> & He & Hw & Hc & Ho & Hl).
    exists s', e, partial. repeat split; auto.
  - cbn [forallb] in Hgood. apply andb_prop in Hgood. destruct Hgood as [Hr Hgood].
    cbn [app for_each flat_map]. unfold bind at 1.
    destruct (@print_reader_good reader s Hr) as (s1 & -> & Hw & Hc & Ho).
    destruct (IH s1 Hgood) as (s2 & e & partial & -> & He & Hw2 & Hc2 & Ho2 & Hl).
    exists s2, e, partial. rewrite Hw2, Hc2, Ho2, Hw, Hc, Ho, <- !app_assoc.
    repeat split; auto.
Qed.

Lemma for_each_returns_good (readers : list pyval) (s s' : state World) :
  for_each (@print_reader World) readers s = (s', Ret tt) ->
  forallb listable readers = true.
Proof.
  revert s. induction readers as [|reader rest IH]; intros s; [reflexivity|].
  cbn [for_each forallb]. unfold bind at 1.
  destruct (listable reader) eqn:Hr.
  - destruct (@print_reader_good reader s Hr) as (s1 & -> & _). intros H. exact (IH _ H).
  - destruct (@print_reader_bad reader s Hr) as (s1 & e & partial & -> & _). discriminate.
Qed.

(** A list that holds a reader without the five fields is never gone
    through to its end. *)
Lemma for_each_raises (good rest : list pyval) (bad : pyval) (s : state World) :
  well_formed_reader bad = false ->
  exists s' e,
    for_each (@print_reader World) (good ++ bad :: rest) s = (s', Raise e) /\
    is_Exception e = true.
Proof.
  intros Hbad.
  destruct (for_each_print_reader_spec (good ++ bad :: rest) s)
    as (s' & res & new & E & _ & _ & _ & _ & He).
  destruct res as [[]|e].
  - apply for_each_returns_good, all_listable_well_formed in E.
    rewrite forallb_app in E. cbn [forallb] in E. rewrite Hbad in E.
    rewrite andb_false_r in E. discriminate.
  - exists s', e. split; [exact E | exact (He e eq_refl)].
Qed.

(** *** list_existing_readers on a list of readers *)

Lemma list_existing_readers_listing
    (s : state World) (r : response) (body : pyval) (readers : list pyval) :
  answer serve (world s) (list_request key) = Responds r ->
  status_code r = 200%Z ->
  parsed r = Some body ->
  field "data" body = Some (PyList readers) ->
  list_existing_readers serve key s =
    try_except
      (bind (for_each (@print_reader World) readers)
            (fun _ => ret (PyList readers)))
      (fun e => bind (print (listing_error_line e)) (fun _ => ret (PyList [])))
      (emit (found_line (Z.of_nat (length readers))) (deliver serve (list_request key) s)).
Proof.
  intros Ho Hst Hp Hd. unfold list_request in Ho.
  destruct body; try discriminate. cbn [field] in Hd.
  open_script. rewrite Ho. cbv beta iota. rewrite Hst.
  change (200 =? 200)%Z with true. cbv beta iota.
  rewrite Hp. cbv beta iota. rewrite Hd. norm.
  destruct (for_each _ _ _) as [s' [[]|e]]; reflexivity.
Qed.

(** X1: when the list call is answered 200 with a body whose [data] is a
    list of readers that all have id, label, device_type, location and
    status, each of which can be printed, [list_existing_readers] returns
    that list and prints the count followed by the two lines of each
    reader, in the order of the list. *)
Theorem listed_readers_are_returned
    (s : state World) (r : response) (body : pyval) (readers : list pyval) :
  answer serve (world s) (list_request key) = Responds r ->
  status_code r = 200%Z ->
  parsed r = Some body ->
  field "data" body = Some (PyList readers) ->
  forallb listable readers = true ->
  snd (list_existing_readers serve key s) = Ret (PyList readers)
  /\ stdout (fst (list_existing_readers serve key s))
     = stdout s ++ found_line (Z.of_nat (length readers)) :: flat_map reader_lines readers.
Proof.
  intros Ho Hst Hp Hd Hall.
  rewrite (list_existing_readers_listing s Ho Hst Hp Hd).
  unfold try_except, bind.
  match goal with
  | |- context [for_each _ readers ?st] =>
      destruct (@for_each_good readers st Hall) as (s' & -> & _ & _ & Hout)
  end.
  cbn. rewrite Hout. cbn. rewrite <- app_assoc. auto.
Qed.

(** X2: when a reader of the list lacks one of the five fields,
    [list_existing_readers] returns the empty list, not the readers the
    service reported.  When the readers before the incomplete one can be
    printed, it has printed the count, the lines of those readers, at most
    one line of the incomplete one and the error line, and none of the
    readers after it. *)
Theorem incomplete_reader_empties_the_listing
    (s : state World) (r : response) (body bad : pyval) (good rest : list pyval) :
  answer serve (world s) (list_request key) = Responds r ->
  status_code r = 200%Z ->
  parsed r = Some body ->
  field "data" body = Some (PyList (good ++ bad :: rest)) ->
  forallb well_formed_reader good = true ->
  well_formed_reader bad = false ->
  snd (list_existing_readers serve key s) = Ret (PyList [])
  /\ (forallb listable good = true ->
      exists partial e,
        stdout (fst (list_existing_readers serve key s))
        = stdout s ++ found_line (Z.of_nat (length (good ++ bad :: rest)))
            :: flat_map reader_lines good ++ partial ++ [listing_error_line e]
        /\ (length partial <= 1)%nat).
Proof.
  intros Ho Hst Hp Hd _ Hbad.
  rewrite (list_existing_readers_listing s Ho Hst Hp Hd).
  unfold try_except, bind. split.
  - match goal with
    | |- context [for_each _ _ ?st] =>
        destruct (@for_each_raises good rest bad st Hbad) as (s' & e & -> & He)
    end.
    rewrite He. reflexivity.
  - intros Hgood.
    assert (Hunlistable : listable bad = false).
    { destruct (listable bad) eqn:E; [|reflexivity].
      rewrite (listable_well_formed _ E) in Hbad. discriminate. }
    match goal with
    | |- context [for_each _ _ ?st] =>
        destruct (@for_each_stops good rest bad st Hgood Hunlistable)
          as (s' & e & partial & -> & He & _ & _ & Hout & Hlen)
    end.
    rewrite He. unfold print, ret, listing_error_line. norm.
    exists partial, e. cbn [fst stdout emit]. rewrite Hout. unfold listing_error_line.
    cbn [app stdout emit deliver]. rewrite <- !app_assoc. auto.
Qed.

(** X3: whatever the service answers, the value [list_existing_readers]
    returns can be iterated, and every element of it has the five fields
    id, label, device_type, location and status. *)
Theorem listing_holds_only_complete_readers (s : state World) :
  exists v readers,
    snd (list_existing_readers serve key s) = Ret v
    /\ py_iter v = Ret readers
    /\ forallb well_formed_reader readers = true.
Proof.
  open_script.
  repeat split_goal; try discriminate.
  all: try (do 2 eexists; repeat split; reflexivity).
  all: try match goal with
       | E : for_each _ ?xs ?st = (_, Raise ?e), F : is_Exception ?e = false |- _ =>
           destruct (for_each_print_reader_spec xs st) as (? & ? & ? & E' & _ & _ & _ & _ & He);
           rewrite E in E'; injection E' as <- <-;
           rewrite (He _ eq_refl) in F; discriminate
       end.
  all: match goal with
       | E : for_each _ _ _ = (_, Ret ?u) |- _ =>
           destruct u; do 2 eexists; split; [reflexivity|]; split; [reflexivity|];
           apply all_listable_well_formed; eapply for_each_returns_good; exact E
       end.
Qed.

(** X4: [verify_location] and [list_existing_readers] each hand exactly
    one request to the transport whatever the answer, a GET that carries no
    form data, and leave the service as that one request left it. *)
Theorem lookups_make_one_get_each (s : state World) :
  (calls (fst (verify_location serve key s)) = calls s ++ [location_request key]
   /\ world (fst (verify_location serve key s)) = after serve (world s) (location_request key)
   /\ rq_method (location_request key) = GET
   /\ rq_data (location_request key) = [])
  /\ (calls (fst (list_existing_readers serve key s)) = calls s ++ [list_request key]
      /\ world (fst (list_existing_readers serve key s)) = after serve (world s) (list_request key)
      /\ rq_method (list_request key) = GET
      /\ rq_data (list_request key) = []).
Proof.
  destruct (verify_location_spec s) as (s1 & v1 & new1 & -> & Hw1 & Hc1 & _).
  destruct (list_existing_readers_spec s) as (s2 & v2 & new2 & -> & Hw2 & Hc2 & _).
  repeat split; assumption.
Qed.


(** *** verify_location on a location it finds *)

(** X5: when the location lookup is answered 200 with a body that has
    display_name, address.line1 and address.city, each of which can be
    printed, [verify_location] returns the body as it is and prints exactly
    two lines, which show those three values. *)
Theorem found_location_is_returned
    (s : state World) (r : response) (body display_name address line1 city : pyval) :
  answer serve (world s) (location_request key) = Responds r ->
  status_code r = 200%Z ->
  parsed r = Some body ->
  field "display_name" body = Some display_name ->
  field "address" body = Some address ->
  field "line1" address = Some line1 ->
  field "city" address = Some city ->
  printable display_name = true ->
  printable line1 = true ->
  printable city = true ->
  snd (verify_location serve key s) = Ret body
  /\ stdout (fst (verify_location serve key s))
     = stdout s ++ location_report display_name line1 city.
Proof.
  intros Ho Hst Hp Hn Ha Hl Hc Pn Pl Pc. unfold location_request in Ho.
  destruct body; try discriminate. destruct address; try discriminate.
  cbn [field] in Hn, Ha, Hl, Hc.
  open_script. rewrite Ho. cbv beta iota. rewrite Hst.
  change (200 =? 200)%Z with true. cbv beta iota.
  rewrite Hp. cbv beta iota. rewrite Hn. norm. rewrite Pn. norm.
  rewrite Ha. cbv beta iota. rewrite Hl. cbv beta iota. rewrite Hc. norm.
  rewrite Pl, Pc. norm.
  cbn. rewrite <- app_assoc. auto.
Qed.

(** *** What a run does, by its key and its location *)

(** X6: the exit status and the calls of a run are fixed by the key and
    the location lookup alone: with the placeholder key status 1 and no
    call; with another key and no location found status 1 and the location
    request only; with a location found status 0 and the three requests in
    the order location, list, create.  A run so never makes two create
    requests and never a list request without a create request after it. *)
Theorem run_is_fixed_by_key_and_location (s : state World) :
  exit_code serve key s
  = (if (key =? PLACEHOLDER_KEY)%string then 1%Z
     else if location_found (answer serve (world s) (location_request key)) then 0%Z
          else 1%Z)
  /\ calls (run serve key s)
     = calls s
         ++ (if (key =? PLACEHOLDER_KEY)%string then []
             else if location_found (answer serve (world s) (location_request key))
                  then [location_request key; list_request key; create_request key]
                  else [location_request key]).
Proof.
  destruct (String.eqb_spec key PLACEHOLDER_KEY) as [Hkey | Hkey].
  - unfold exit_code, run. rewrite Hkey, main_placeholder. cbn. rewrite app_nil_r. auto.
  - destruct (location_found _) eqn:Hloc.
    + unfold exit_code, run.
      destruct (main_completes s Hkey Hloc) as (s' & pre & v & new & -> & _ & Hc & _).
      auto.
    + destruct (main_aborts_status s Hkey Hloc) as (He & Hc & _). auto.
Qed.



(** *** What register_terminal_reader shows of a failure *)


(** X9: when the create call is answered 200 with a body that is JSON
    but lacks one of id, device_type, location and status, or holds one
    that cannot be printed, [register_terminal_reader] has printed the line
    that says the reader is registered before it fails on that field: its
    output is the banner, that line, at most three lines of fields, and the
    error line, and it returns [None]. *)
Theorem incomplete_reader_prints_success_first
    (s : state World) (r : response) (body : pyval) :
  answer serve (world s) (create_request key) = Responds r ->
  status_code r = 200%Z ->
  parsed r = Some body ->
  reader_created (Responds r) = false ->
  snd (register_terminal_reader serve key s) = Ret PyNone
  /\ exists shown e,
       stdout (fst (register_terminal_reader serve key s))
       = stdout s ++ register_banner
           ++ registered_line :: shown ++ [[Lit "❌ Error registering reader: "; FmtExn e]]
       /\ (length shown <= 3)%nat.
Proof.
  intros Ho Hst Hp. unfold create_request in Ho.
  open_script.
  change (data_getitem reader_data "label") with (Ret (PyStr "Ohr Shalom Donation Kiosk")).
  norm. rewrite !world_emit, Ho. cbv beta iota. rewrite Hst, Hp.
  change (200 =? 200)%Z with true. norm.
  repeat split_goal; try discriminate.
  all: try (rewrite ?andb_true_r; discriminate).
  all: intros _; split; [reflexivity|].
  all: cbn [stdout fst emit deliver]; rewrite <- !app_assoc;
    unfold register_banner, registered_line; cbn [app].
  all: first
         [ solve [exists []; eexists; split; [reflexivity | cbn; lia]]
         | solve [eexists [_]; eexists; split; [reflexivity | cbn; lia]]
         | solve [eexists [_; _]; eexists; split; [reflexivity | cbn; lia]]
         | solve [eexists [_; _; _]; eexists; split; [reflexivity | cbn; lia]] ].
Qed.

End Properties.

(** ** The claims on concrete runs *)

Lemma operator_key_set : operator_key <> PLACEHOLDER_KEY.
Proof. discriminate. Qed.

Lemma counting_creates : creates_per_request counting counted_readers.
Proof.
  intros w rq r Hm _ _ _ _. unfold after, counting, counted_readers. rewrite Hm. cbn [fst].
  exists w. split.
  - apply seq_S.
  - rewrite in_seq. lia.
Qed.

Lemma placeholder_key_witness :
  exit_code scripted PLACEHOLDER_KEY (fresh [ok sample_location]) = 1%Z
  /\ calls (run scripted PLACEHOLDER_KEY (fresh [ok sample_location])) = []
  /\ world (run scripted PLACEHOLDER_KEY (fresh [ok sample_location])) = [ok sample_location].
Proof.
  exact (@placeholder_key_exits_before_any_call _ scripted PLACEHOLDER_KEY
           (fresh [ok sample_location]) eq_refl).
Defined.

Lemma location_failure_witness :
  snd (verify_location scripted operator_key (fresh [not_found; no_readers; ok sample_reader]))
  = Ret PyNone
  /\ exit_code scripted operator_key (fresh [not_found; no_readers; ok sample_reader]) = 1%Z
  /\ calls (run scripted operator_key (fresh [not_found; no_readers; ok sample_reader]))
     = [location_request operator_key].
Proof.
  destruct (@location_failure_aborts_workflow _ scripted operator_key
              (fresh [not_found; no_readers; ok sample_reader]))
    as (Hv & He & Hc & _).
  - discriminate.
  - reflexivity.
  - repeat split; assumption.
Defined.

Lemma enumeration_failure_witness :
  snd (list_existing_readers scripted operator_key
         {| world := [Fails "timed out"; ok sample_reader]; calls := []; stdout := [] |})
  = Ret (PyList [])
  /\ calls (run scripted operator_key
              (fresh [ok sample_location; Fails "timed out"; ok sample_reader]))
     = [location_request operator_key; list_request operator_key;
        create_request operator_key].
Proof.
  destruct (@enumeration_failure_is_not_fatal _ scripted operator_key
              (fresh [ok sample_location; Fails "timed out"; ok sample_reader]))
    as (Hl & Hc & _).
  - discriminate.
  - reflexivity.
  - reflexivity.
  - split; [apply Hl; reflexivity | exact Hc].
Defined.

Lemma successful_registration_witness :
  exit_code scripted operator_key (fresh [ok sample_location; no_readers; ok sample_reader]) = 0%Z
  /\ exists pre,
       stdout (run scripted operator_key
                 (fresh [ok sample_location; no_readers; ok sample_reader]))
       = pre ++ register_banner
           ++ reader_report (PyStr "tmr_123") (PyStr "tap_to_pay_android")
                (PyStr "tml_GKsXoQ8u9cFZJF") (PyStr "online")
           ++ next_steps (PyStr "tmr_123").
Proof.
  destruct (@successful_registration_is_surfaced _ scripted operator_key
              (fresh [ok sample_location; no_readers; ok sample_reader])
              {| status_code := 200; text := ""; text_decoded := eq_refl; parsed := Some sample_reader |}
              sample_reader (PyStr "tmr_123") (PyStr "tap_to_pay_android")
              (PyStr "tml_GKsXoQ8u9cFZJF") (PyStr "online"))
    as (_ & _ & He & pre & Hout & _).
  - discriminate.
  - reflexivity.
  - reflexivity.
  - reflexivity.
  - reflexivity.
  - reflexivity.
  - reflexivity.
  - reflexivity.
  - reflexivity.
  - reflexivity.
  - reflexivity.
  - reflexivity.
  - reflexivity.
  - split; [exact He | exists pre; exact Hout].
Defined.

(** C4 as first stated fails twice.  A call answered 201, a success
    status of HTTP, with the four fields in its body is not taken for a
    success: line 45 tests for 200, the function returns [None] and the
    run ends on the failure line.  And a call answered 200 whose [id] is a
    lone surrogate, which the JSON parser accepts, makes the [print] of
    line 48 raise inside the [try]: the function returns [None] as
    well. *)
Lemma success_answers_not_surfaced :
  (http_success 201 = true
   /\ forallb (fun k => present (field k sample_reader)) reader_fields = true
   /\ snd (register_terminal_reader scripted operator_key
             {| world := [created_201 sample_reader]; calls := []; stdout := [] |})
      = Ret PyNone
   /\ last (stdout (run scripted operator_key
                      (fresh [ok sample_location; no_readers; created_201 sample_reader]))) []
      = failure_line)
  /\ (field "id" (PyDict [("id", PyStr lone_surrogate);
                          ("device_type", PyStr "tap_to_pay_android");
                          ("location", PyStr "tml_GKsXoQ8u9cFZJF");
                          ("status", PyStr "online")]) = Some (PyStr lone_surrogate)
      /\ snd (register_terminal_reader scripted operator_key
                {| world := [ok (PyDict [("id", PyStr lone_surrogate);
                                         ("device_type", PyStr "tap_to_pay_android");
                                         ("location", PyStr "tml_GKsXoQ8u9cFZJF");
                                         ("status", PyStr "online")])];
                   calls := []; stdout := [] |})
         = Ret PyNone).
Proof. repeat split; reflexivity. Qed.

Lemma failed_registration_witness :
  snd (register_terminal_reader scripted operator_key
         {| world := [invalid_metadata]; calls := []; stdout := [] |})
  = Ret PyNone
  /\ exists out,
       stdout (run scripted operator_key
                 (fresh [ok sample_location; no_readers; invalid_metadata])) = out
       /\ existsb claims_success out = false
       /\ last out [] = failure_line.
Proof.
  destruct (@failed_registration_is_reported _ scripted operator_key
              (fresh [ok sample_location; no_readers; invalid_metadata]))
    as (Hr & out & Hout & Hq & Hl).
  - discriminate.
  - reflexivity.
  - reflexivity.
  - split; [apply Hr; reflexivity | exists out; auto].
Defined.

Lemma verified_location_witness :
  exit_code scripted operator_key (fresh [ok sample_location; not_found; not_found]) = 0%Z.
Proof.
  apply (@verified_location_exits_zero _ scripted operator_key
           (fresh [ok sample_location; not_found; not_found])).
  - discriminate.
  - reflexivity.
Defined.

Lemma register_twice_witness :
  exists a b : nat,
    counted_readers
      (world (fst (register_terminal_reader counting operator_key
                     (fst (register_terminal_reader counting operator_key counting_start)))))
    = counted_readers 0 ++ [a; b]
    /\ a <> b.
Proof.
  destruct (@register_twice_creates_two_readers _ counting operator_key nat counted_readers
              counting_start counting_creates)
    as (_ & _ & _ & _ & Htwo).
  eapply Htwo; reflexivity.
Defined.

Lemma unusable_success_body_witness :
  snd (register_terminal_reader terse operator_key counting_start) = Ret PyNone
  /\ world (fst (register_terminal_reader terse operator_key counting_start)) = 1%nat
  /\ exists out,
       stdout (run terse operator_key counting_start) = out
       /\ last out [] = failure_line.
Proof.
  destruct (@unusable_success_body_reports_failure _ terse operator_key counting_start
              {| status_code := 200; text := ""; text_decoded := eq_refl;
                 parsed := Some (PyDict [("object", PyStr "terminal.reader")]) |})
    as (Hr & _ & out & Hout & Hl).
  - discriminate.
  - reflexivity.
  - reflexivity.
  - reflexivity.
  - right. exists "id". split; [left; reflexivity | reflexivity].
  - destruct (Hr counting_start eq_refl) as (Hv & _ & Hw).
    split; [exact Hv | split; [exact Hw | exists out; auto]].
Defined.

Lemma incomplete_location_witness :
  snd (verify_location scripted operator_key
         (fresh [ok (PyDict [("display_name", PyStr "Ohr Shalom")])]))
  = Ret PyNone
  /\ exit_code scripted operator_key
       (fresh [ok (PyDict [("display_name", PyStr "Ohr Shalom")])]) = 1%Z.
Proof.
  destruct (@incomplete_location_aborts_workflow _ scripted operator_key
              (fresh [ok (PyDict [("display_name", PyStr "Ohr Shalom")])])
              {| status_code := 200; text := ""; text_decoded := eq_refl;
                 parsed := Some (PyDict [("display_name", PyStr "Ohr Shalom")]) |})
    as (Hv & He & _).
  - discriminate.
  - reflexivity.
  - reflexivity.
  - right. left. reflexivity.
  - split; assumption.
Defined.

(** Against [terse] the create call is answered 200 with a JSON object
    that has no [id]: line 47 has printed the success line before line 48
    raises [KeyError], so the run shows the success line and still ends on
    the failure line, with one reader made by the service. *)
Example terse_run_prints_both :
  existsb claims_success (stdout (run terse operator_key counting_start)) = true
  /\ last (stdout (run terse operator_key counting_start)) [] = failure_line
  /\ counted_readers (world (run terse operator_key counting_start)) = [0%nat].
Proof. repeat split; reflexivity. Qed.

(** ** The further properties on concrete runs *)

Lemma listed_readers_witness :
  snd (list_existing_readers scripted operator_key
         (fresh [ok (PyDict [("data", PyList [listed_reader; second_reader])])]))
  = Ret (PyList [listed_reader; second_reader])
  /\ stdout (fst (list_existing_readers scripted operator_key
                    (fresh [ok (PyDict [("data", PyList [listed_reader; second_reader])])])))
     = [] ++ found_line 2 :: flat_map reader_lines [listed_reader; second_reader].
Proof.
  apply (@listed_readers_are_returned _ scripted operator_key
           (fresh [ok (PyDict [("data", PyList [listed_reader; second_reader])])])
           {| status_code := 200; text := ""; text_decoded := eq_refl;
              parsed := Some (PyDict [("data", PyList [listed_reader; second_reader])]) |}
           (PyDict [("data", PyList [listed_reader; second_reader])])
           [listed_reader; second_reader]);
    reflexivity.
Defined.

Lemma incomplete_reader_witness :
  snd (list_existing_readers scripted operator_key
         (fresh [ok (PyDict [("data", PyList [listed_reader; sample_reader; second_reader])])]))
  = Ret (PyList [])
  /\ exists partial e,
       stdout (fst (list_existing_readers scripted operator_key
                      (fresh [ok (PyDict [("data",
                                PyList [listed_reader; sample_reader; second_reader])])])))
       = [] ++ found_line 3
           :: flat_map reader_lines [listed_reader] ++ partial ++ [listing_error_line e]
       /\ (length partial <= 1)%nat.
Proof.
  destruct (@incomplete_reader_empties_the_listing _ scripted operator_key
              (fresh [ok (PyDict [("data",
                        PyList [listed_reader; sample_reader; second_reader])])])
              {| status_code := 200; text := ""; text_decoded := eq_refl;
                 parsed := Some (PyDict [("data",
                             PyList [listed_reader; sample_reader; second_reader])]) |}
              (PyDict [("data", PyList [listed_reader; sample_reader; second_reader])])
              sample_reader [listed_reader] [second_reader])
    as (Hv & Hshown); try reflexivity.
  split; [exact Hv | exact (Hshown eq_refl)].
Defined.

Lemma found_location_witness :
  snd (verify_location scripted operator_key (fresh [ok sample_location]))
  = Ret sample_location
  /\ stdout (fst (verify_location scripted operator_key (fresh [ok sample_location])))
     = [] ++ location_report (PyStr "Ohr Shalom") (PyStr "1 Main Street") (PyStr "Miami").
Proof.
  apply (@found_location_is_returned _ scripted operator_key (fresh [ok sample_location])
           {| status_code := 200; text := ""; text_decoded := eq_refl; parsed := Some sample_location |}
           sample_location (PyStr "Ohr Shalom")
           (PyDict [("line1", PyStr "1 Main Street"); ("city", PyStr "Miami")])
           (PyStr "1 Main Street") (PyStr "Miami"));
    reflexivity.
Defined.



Lemma incomplete_reader_success_witness :
  snd (register_terminal_reader scripted operator_key
         (fresh [ok (PyDict [("id", PyStr "tmr_123")])]))
  = Ret PyNone
  /\ exists shown e,
       stdout (fst (register_terminal_reader scripted operator_key
                      (fresh [ok (PyDict [("id", PyStr "tmr_123")])])))
       = [] ++ register_banner
           ++ registered_line :: shown ++ [[Lit "❌ Error registering reader: "; FmtExn e]]
       /\ (length shown <= 3)%nat.
Proof.
  apply (@incomplete_reader_prints_success_first _ scripted operator_key
           (fresh [ok (PyDict [("id", PyStr "tmr_123")])])
           {| status_code := 200; text := ""; text_decoded := eq_refl;
              parsed := Some (PyDict [("id", PyStr "tmr_123")]) |}
           (PyDict [("id", PyStr "tmr_123")]));
    reflexivity.
Defined.

(** A value that is a lone surrogate cannot be written to standard
    output: a location whose display_name is one is refused although the
    service found it, and a list holding a reader whose label is one comes
    back empty. *)
Example surrogate_fields_are_refused :
  snd (verify_location scripted operator_key
         (fresh [ok (PyDict [("display_name", PyStr lone_surrogate);
                             ("address", PyDict [("line1", PyStr "1 Main Street");
                                                 ("city", PyStr "Miami")])])]))
  = Ret PyNone
  /\ snd (list_existing_readers scripted operator_key
            (fresh [ok (PyDict [("data",
                      PyList [PyDict [("id", PyStr "tmr_123");
                                      ("label", PyStr lone_surrogate);
                                      ("device_type", PyStr "tap_to_pay_android");
                                      ("location", PyStr "tml_GKsXoQ8u9cFZJF");
                                      ("status", PyStr "online")]])])]))
     = Ret (PyList []).
Proof. split; reflexivity. Qed.
